(** * Google Auth setup and validation scripts

    A shallow embedding of the two command-line scripts of the backend,
    [setup-google-auth.ts] and [validate-google-auth.ts], and the proofs of
    their specification.

    Strings are [string]s: a JavaScript string is held as the bytes of its
    UTF-8 encoding, so that a file's bytes and a text written to a file are
    values of one type (the texts of the scripts come from the environment,
    from files read as UTF-8 and from literals, and are well formed).  All
    the needles the scripts search for are ASCII, and a search for an ASCII
    needle gives the same answer over UTF-16 code units and over UTF-8
    bytes. *)

From Stdlib Require Import Ascii.
From stdpp Require Import gmap strings list fin_maps pretty.

(** ** Strings *)

(** The line feed, written [\n] in the scripts. *)
Definition LF : string := String (Ascii.ascii_of_nat 10) "".

(** [s.includes(needle)]: [needle] occurs in [s] at some position. *)
Fixpoint includes (s needle : string) : bool :=
  if String.prefix needle s then true
  else match s with
       | "" => false
       | String _ s' => includes s' needle
       end.

(** What "contains the substring" means. *)
Definition contains (s needle : string) : Prop :=
  ∃ before after, s = before +:+ needle +:+ after.

(** [!value] for a value of type [string | undefined]. *)
Definition falsy (value : option string) : bool :=
  match value with
  | None => true
  | Some s => String.eqb s ""
  end.

(** ** The runtime *)

(** An [Error] object. *)
Record Error := { error_name : string; error_message : string }.

(** The result of [new URL(input)], of which the scripts read [pathname]. *)
Record URL := { pathname : string }.

(** What the scripts take from the JavaScript runtime: the URL parser behind
    [new URL(input)], which throws on an input that is not a URL ([None]),
    and the decoder behind [readFileSync(path, "utf8")], from a file's bytes
    to its text. *)
Class Runtime := {
  parseURL : string → option URL;
  utf8_decode : string → string;
}.

(** An entry of the file system: a file that can be read, with its bytes, or
    an entry that exists and whose reading throws (a directory, a file
    without read permission). *)
Inductive node :=
  | File (bytes : string)
  | Unreadable (e : Error).

(** The file system: its entries by absolute path, and for each path whether
    writing it is refused (read-only directory, full disk). *)
Record FileSystem := {
  nodes : gmap string node;
  refused : string → option Error;
}.

(** A line of output: [console.log(text)] or [console.error(text, error)]. *)
Inductive output :=
  | Log (text : string)
  | ErrorLog (text : string) (e : Error).

(** The state of a process: working directory, environment (for the
    validation script, as it is once [dotenv] has loaded [.env]), file system
    and what was printed so far. *)
Record World := {
  cwd : string;
  env : gmap string string;
  fs : FileSystem;
  console : list output;
}.

(** How a computation ends: with a value, with a thrown error, or with the
    process exited. *)
Inductive Outcome (A : Type) :=
  | Ok (a : A)
  | Throw (e : Error)
  | Exit (code : Z).
Arguments Ok {A} a.
Arguments Throw {A} e.
Arguments Exit {A} code.

Definition M (A : Type) : Type := World → Outcome A * World.

Definition ret {A} (a : A) : M A := λ w, (Ok a, w).

Definition bind {A B} (m : M A) (k : A → M B) : M B :=
  λ w, match m w with
       | (Ok a, w') => k a w'
       | (Throw e, w') => (Throw e, w')
       | (Exit c, w') => (Exit c, w')
       end.

Notation "'let*' x := m 'in' k" := (bind m (λ x, k))
  (at level 10, x name, m at level 100, k at level 200).
Notation "m ;;; k" := (bind m (λ _, k))
  (at level 100, k at level 200, right associativity).

Definition throw {A} (e : Error) : M A := λ w, (Throw e, w).

(** [try { body } catch (error) { handler }] *)
Definition try_catch {A} (body : M A) (handler : Error → M A) : M A :=
  λ w, match body w with
       | (Throw e, w') => handler e w'
       | r => r
       end.

(** [for (const x of xs) { body }], the loop's variables in [s]. *)
Fixpoint for_of {A S} (xs : list A) (body : A → S → M S) (s : S) : M S :=
  match xs with
  | [] => ret s
  | x :: xs' => let* s' := body x s in for_of xs' body s'
  end.

(** [xs.forEach(f)] *)
Definition forEach {A} (xs : list A) (f : A → M unit) : M unit :=
  for_of xs (λ x _, f x) tt.

(** [results.push(r)] *)
Definition push {A} (results : list A) (r : A) : list A := results ++ [r].

Definition process_cwd : M string := λ w, (Ok (cwd w), w).

(** [process.env[name]] *)
Definition process_env (name : string) : M (option string) :=
  λ w, (Ok (env w !! name), w).

Definition process_exit {A} (code : Z) : M A := λ w, (Exit code, w).

(** The world once [lines] more are printed. *)
Definition printed (w : World) (lines : list output) : World :=
  {| cwd := cwd w; env := env w; fs := fs w; console := console w ++ lines |}.

Definition console_log (text : string) : M unit :=
  λ w, (Ok tt, printed w [Log text]).

Definition console_error (text : string) (e : Error) : M unit :=
  λ w, (Ok tt, printed w [ErrorLog text e]).

(** [resolve(process.cwd(), name)] for a plain file name: the entry [name] of
    the directory. *)
Definition resolve (dir name : string) : string :=
  if String.eqb dir "/" then "/" +:+ name else dir +:+ "/" +:+ name.

Definition existsSync (path : string) : M bool :=
  λ w, (Ok (bool_decide (is_Some (nodes (fs w) !! path))), w).

Definition ENOENT : Error :=
  {| error_name := "Error"; error_message := "ENOENT: no such file or directory" |}.

(** [readFileSync(path, "utf8")] *)
Definition readFileSync `{Runtime} (path : string) : M string :=
  λ w, match nodes (fs w) !! path with
       | Some (File bytes) => (Ok (utf8_decode bytes), w)
       | Some (Unreadable e) => (Throw e, w)
       | None => (Throw ENOENT, w)
       end.

(** The world once the file at [path] holds [bytes]. *)
Definition written (w : World) (path bytes : string) : World :=
  {| cwd := cwd w; env := env w;
     fs := {| nodes := <[path := File bytes]> (nodes (fs w));
              refused := refused (fs w) |};
     console := console w |}.

(** [writeFileSync(path, data)]: the file holds the UTF-8 encoding of
    [data]. *)
Definition writeFileSync (path data : string) : M unit :=
  λ w, match refused (fs w) path with
       | Some e => (Throw e, w)
       | None => (Ok tt, written w path data)
       end.

(** [new URL(input)] *)
Definition new_URL `{Runtime} (input : string) : M URL :=
  match parseURL input with
  | Some url => ret url
  | None => throw {| error_name := "TypeError"; error_message := "Invalid URL" |}
  end.

(** ** The validation script, [validate-google-auth.ts] *)

Module Validate.
Section validate.
Context `{Runtime}.

Record ValidationResult := { success : bool; message : string }.

Definition requiredVars : list string :=
  ["GOOGLE_CLIENT_ID"; "GOOGLE_CLIENT_SECRET"; "GOOGLE_CALLBACK_URL"].

(** The test of the second branch of the loop, on a value that is set. *)
Definition placeholder (value : string) : bool :=
  includes value "your_" ||
  includes value "_here" ||
  String.eqb value "your_google_client_id" ||
  String.eqb value "your_google_client_secret".

Definition validateEnvironmentVariables : M (list ValidationResult) :=
  let results := [] in
  let* results :=
    for_of requiredVars (λ varName results,
      let* value := process_env varName in
      if falsy value then
        ret (push results
          {| success := false;
             message := "❌ Missing required environment variable: " +:+ varName |})
      else
        let value := default "" value in
        if placeholder value then
          ret (push results
            {| success := false;
               message := "❌ Environment variable " +:+ varName +:+
                 " contains placeholder value. Please update with actual Google OAuth credentials." |})
        else
          ret (push results
            {| success := true;
               message := "✅ " +:+ varName +:+ " is configured" |}))
      results in
  ret results.

Definition validateCallbackUrl : M ValidationResult :=
  let* callbackUrl := process_env "GOOGLE_CALLBACK_URL" in
  if falsy callbackUrl then
    ret {| success := false; message := "❌ GOOGLE_CALLBACK_URL is not set" |}
  else
    let callbackUrl := default "" callbackUrl in
    try_catch
      (let* url := new_URL callbackUrl in
       if negb (includes (pathname url) "/auth/callback") then
         ret {| success := false;
                message := "❌ GOOGLE_CALLBACK_URL should end with '/auth/callback', got: "
                             +:+ pathname url |}
       else
         ret {| success := true;
                message := "✅ GOOGLE_CALLBACK_URL is properly formatted: "
                             +:+ callbackUrl |})
      (λ error,
         ret {| success := false;
                message := "❌ GOOGLE_CALLBACK_URL is not a valid URL: "
                             +:+ callbackUrl |}).

Definition checkConfigFile : M ValidationResult :=
  try_catch
    (let* dir := process_cwd in
     let configPath := resolve dir "medusa-config.ts" in
     let* found := existsSync configPath in
     if negb found then
       ret {| success := false; message := "❌ medusa-config.ts file not found" |}
     else
       let* configContent := readFileSync configPath in
       if includes configContent "@medusajs/medusa/auth-google" then
         ret {| success := true;
                message := "✅ Google Auth Module is configured in medusa-config.ts" |}
       else
         ret {| success := false;
                message := "❌ Google Auth Module not found in medusa-config.ts" |})
    (λ error,
       ret {| success := false;
              message := "❌ Error reading medusa-config.ts: "
                           +:+ error_message error |}).

(** [[...envResults, callbackResult, configResult]] *)
Definition allResults (envResults : list ValidationResult)
    (callbackResult configResult : ValidationResult) : list ValidationResult :=
  envResults ++ [callbackResult; configResult].

Definition main : M unit :=
  console_log ("🔍 Validating Google Auth Integration..." +:+ LF) ;;;
  let* envResults := validateEnvironmentVariables in
  let* callbackResult := validateCallbackUrl in
  let* configResult := checkConfigFile in
  let allResults := allResults envResults callbackResult configResult in
  console_log "Environment Variables:" ;;;
  forEach envResults (λ result, console_log ("  " +:+ message result)) ;;;
  console_log (LF +:+ "Callback URL:") ;;;
  console_log ("  " +:+ message callbackResult) ;;;
  console_log (LF +:+ "Configuration:") ;;;
  console_log ("  " +:+ message configResult) ;;;
  let failedResults := List.filter (λ result, negb (success result)) allResults in
  if Nat.eqb (length failedResults) 0 then
    console_log (LF +:+
      "🎉 All validations passed! Google Auth integration is properly configured.") ;;;
    console_log (LF +:+ "Next steps:") ;;;
    console_log "1. Start your Medusa backend: bun run dev" ;;;
    console_log
      "2. Start your storefront: cd ../joyjunction-storefront && bun run dev" ;;;
    console_log
      "3. Visit http://localhost:8000/account and test Google Sign-In" ;;;
    process_exit 0
  else
    console_log (LF +:+ "❌ " +:+ pretty (length failedResults) +:+
      " validation(s) failed. Please fix the issues above.") ;;;
    console_log (LF +:+ "Common fixes:") ;;;
    console_log
      "- Copy .env.template to .env and fill in your Google OAuth credentials" ;;;
    console_log "- Ensure GOOGLE_CALLBACK_URL ends with /auth/callback" ;;;
    console_log "- Get Google OAuth credentials from Google Cloud Console" ;;;
    console_log (LF +:+
      "For detailed setup instructions, see: ../GOOGLE_AUTH_SETUP.md") ;;;
    process_exit 1.

(** *** The checks as functions of what they read *)

Definition envResult (varName : string) (value : option string) : ValidationResult :=
  match value with
  | Some (String _ _ as text) =>
      if placeholder text then
        {| success := false;
           message := "❌ Environment variable " +:+ varName +:+
             " contains placeholder value. Please update with actual Google OAuth credentials." |}
      else {| success := true; message := "✅ " +:+ varName +:+ " is configured" |}
  | _ =>
      {| success := false;
         message := "❌ Missing required environment variable: " +:+ varName |}
  end.

Definition callbackResult (value : option string) : ValidationResult :=
  match value with
  | Some (String _ _ as text) =>
      match parseURL text with
      | Some url =>
          if includes (pathname url) "/auth/callback" then
            {| success := true;
               message := "✅ GOOGLE_CALLBACK_URL is properly formatted: " +:+ text |}
          else
            {| success := false;
               message := "❌ GOOGLE_CALLBACK_URL should end with '/auth/callback', got: "
                            +:+ pathname url |}
      | None =>
          {| success := false;
             message := "❌ GOOGLE_CALLBACK_URL is not a valid URL: " +:+ text |}
      end
  | _ => {| success := false; message := "❌ GOOGLE_CALLBACK_URL is not set" |}
  end.

Definition configResult (entry : option node) : ValidationResult :=
  match entry with
  | None => {| success := false; message := "❌ medusa-config.ts file not found" |}
  | Some (Unreadable e) =>
      {| success := false;
         message := "❌ Error reading medusa-config.ts: " +:+ error_message e |}
  | Some (File bytes) =>
      if includes (utf8_decode bytes) "@medusajs/medusa/auth-google" then
        {| success := true;
           message := "✅ Google Auth Module is configured in medusa-config.ts" |}
      else
        {| success := false;
           message := "❌ Google Auth Module not found in medusa-config.ts" |}
  end.

(** *** The specification's rules *)

(** The rule of the environment-variable check for one variable. *)
Definition env_rule (varName : string) (value : option string)
    (r : ValidationResult) : Prop :=
  (value = None ∨ value = Some "" →
     r = {| success := false;
            message := "❌ Missing required environment variable: " +:+ varName |}) ∧
  (∀ text, value = Some text → text ≠ "" →
     contains text "your_" ∨ contains text "_here" ∨
     text = "your_google_client_id" ∨ text = "your_google_client_secret" →
     r = {| success := false;
            message := "❌ Environment variable " +:+ varName +:+
              " contains placeholder value. Please update with actual Google OAuth credentials." |}) ∧
  (∀ text, value = Some text → text ≠ "" →
     ¬ (contains text "your_" ∨ contains text "_here" ∨
        text = "your_google_client_id" ∨ text = "your_google_client_secret") →
     r = {| success := true; message := "✅ " +:+ varName +:+ " is configured" |}).

(** The placeholder test in the specification's shorter form. *)
Definition placeholder_substrings (value : string) : bool :=
  includes value "your_" || includes value "_here".

(** The three groups of the report. *)
Definition report (envResults : list ValidationResult)
    (callbackResult configResult : ValidationResult) : list output :=
  [Log "Environment Variables:"] ++
  map (λ result, Log ("  " +:+ message result)) envResults ++
  [Log (LF +:+ "Callback URL:"); Log ("  " +:+ message callbackResult);
   Log (LF +:+ "Configuration:"); Log ("  " +:+ message configResult)].

(** What follows the report, for a number of failed checks. *)
Definition closing (failed : nat) : list output :=
  if Nat.eqb failed 0 then
    [Log (LF +:+
       "🎉 All validations passed! Google Auth integration is properly configured.");
     Log (LF +:+ "Next steps:");
     Log "1. Start your Medusa backend: bun run dev";
     Log "2. Start your storefront: cd ../joyjunction-storefront && bun run dev";
     Log "3. Visit http://localhost:8000/account and test Google Sign-In"]
  else
    [Log (LF +:+ "❌ " +:+ pretty failed +:+
       " validation(s) failed. Please fix the issues above.");
     Log (LF +:+ "Common fixes:");
     Log "- Copy .env.template to .env and fill in your Google OAuth credentials";
     Log "- Ensure GOOGLE_CALLBACK_URL ends with /auth/callback";
     Log "- Get Google OAuth credentials from Google Cloud Console";
     Log (LF +:+ "For detailed setup instructions, see: ../GOOGLE_AUTH_SETUP.md")].

Definition failures (results : list ValidationResult) : nat :=
  length (List.filter (λ result, negb (success result)) results).

End validate.
End Validate.

(** ** The setup script, [setup-google-auth.ts] *)

Module Setup.
Section setup.
Context `{Runtime}.

Definition createEnvFile : M unit :=
  let* dir := process_cwd in
  let envPath := resolve dir ".env" in
  let templatePath := resolve dir ".env.template" in
  console_log ("Checking for .env file at: " +:+ envPath) ;;;
  console_log ("Checking for .env.template file at: " +:+ templatePath) ;;;
  let* envFound := existsSync envPath in
  if envFound then
    console_log
      "📋 .env file already exists. Please manually update it with your Google OAuth credentials." ;;;
    console_log
      "   Required variables: GOOGLE_CLIENT_ID, GOOGLE_CLIENT_SECRET, GOOGLE_CALLBACK_URL" ;;;
    ret tt
  else
  let* templateFound := existsSync templatePath in
  if negb templateFound then
    console_log
      "❌ .env.template file not found. Please ensure you are in the correct directory." ;;;
    ret tt
  else
  try_catch
    (let* templateContent := readFileSync templatePath in
     writeFileSync envPath templateContent ;;;
     console_log "✅ Created .env file from template" ;;;
     console_log "📝 Please update the following variables in your .env file:" ;;;
     console_log "   - GOOGLE_CLIENT_ID: Your Google OAuth Client ID" ;;;
     console_log "   - GOOGLE_CLIENT_SECRET: Your Google OAuth Client Secret" ;;;
     console_log
       "   - GOOGLE_CALLBACK_URL: Usually http://localhost:8000/auth/callback for development" ;;;
     console_log "" ;;;
     console_log
       "🔗 Get these credentials from: https://console.cloud.google.com/apis/credentials" ;;;
     console_log
       "📖 For detailed setup instructions, see: ../GOOGLE_AUTH_SETUP.md")
    (λ error, console_error "❌ Error creating .env file:" error).

Definition main : M unit :=
  console_log ("🚀 Google Auth Setup Utility" +:+ LF) ;;;
  createEnvFile ;;;
  console_log (LF +:+
    "🔍 Run " +:+ String (Ascii.ascii_of_nat 34) "bun validate-google-auth.ts" +:+
    String (Ascii.ascii_of_nat 34)
      " after updating your .env file to validate the configuration.").

(** *** What the script prints *)

Definition checking (w : World) : list output :=
  [Log ("Checking for .env file at: " +:+ resolve (cwd w) ".env");
   Log ("Checking for .env.template file at: " +:+ resolve (cwd w) ".env.template")].

Definition already_exists : list output :=
  [Log "📋 .env file already exists. Please manually update it with your Google OAuth credentials.";
   Log "   Required variables: GOOGLE_CLIENT_ID, GOOGLE_CLIENT_SECRET, GOOGLE_CALLBACK_URL"].

Definition template_not_found : list output :=
  [Log "❌ .env.template file not found. Please ensure you are in the correct directory."].

Definition created : list output :=
  [Log "✅ Created .env file from template";
   Log "📝 Please update the following variables in your .env file:";
   Log "   - GOOGLE_CLIENT_ID: Your Google OAuth Client ID";
   Log "   - GOOGLE_CLIENT_SECRET: Your Google OAuth Client Secret";
   Log "   - GOOGLE_CALLBACK_URL: Usually http://localhost:8000/auth/callback for development";
   Log "";
   Log "🔗 Get these credentials from: https://console.cloud.google.com/apis/credentials";
   Log "📖 For detailed setup instructions, see: ../GOOGLE_AUTH_SETUP.md"].

(** *** The copy, as the specification words it *)

(** With no [.env] and a [.env.template], the run leaves a [.env] that holds
    the bytes of the template. *)
Definition copies_verbatim (w : World) : Prop :=
  let envPath := resolve (cwd w) ".env" in
  let templatePath := resolve (cwd w) ".env.template" in
  nodes (fs w) !! envPath = None →
  ∀ template, nodes (fs w) !! templatePath = Some template →
  ∃ bytes,
    template = File bytes ∧
    nodes (fs (createEnvFile w).2) !! envPath = Some (File bytes).

End setup.
End Setup.

(** ** A runtime to evaluate the scripts with *)

(** *** UTF-8 *)

Module UTF8.

(** The decoder of the Encoding Standard, as [fs] applies it (invalid bytes
    become U+FFFD, a byte order mark is kept).  A text being held as its
    UTF-8 bytes, the decoder gives for a code point the bytes it has read for
    it ([sequence]) and for an error the bytes of U+FFFD. *)
Record decoder := {
  bytes_needed : N;
  bytes_seen : N;
  lower_boundary : N;
  upper_boundary : N;
  sequence : string;
}.

Definition start : decoder :=
  {| bytes_needed := 0; bytes_seen := 0;
     lower_boundary := 0x80; upper_boundary := 0xBF; sequence := "" |}.

(** U+FFFD, the bytes EF BF BD. *)
Definition replacement : string :=
  String (Ascii.ascii_of_N 0xEF) (String (Ascii.ascii_of_N 0xBF) (String (Ascii.ascii_of_N 0xBD) "")).

Definition within (lo hi n : N) : bool := (lo <=? n)%N && (n <=? hi)%N.

(** A byte read when no code point is under way. *)
Definition lead (byte : ascii) : decoder * string :=
  let n := Ascii.N_of_ascii byte in
  if within 0x00 0x7F n then (start, String byte "")
  else if within 0xC2 0xDF n then
    ({| bytes_needed := 1; bytes_seen := 0;
        lower_boundary := 0x80; upper_boundary := 0xBF;
        sequence := String byte "" |}, "")
  else if within 0xE0 0xEF n then
    ({| bytes_needed := 2; bytes_seen := 0;
        lower_boundary := if (n =? 0xE0)%N then 0xA0 else 0x80;
        upper_boundary := if (n =? 0xED)%N then 0x9F else 0xBF;
        sequence := String byte "" |}, "")
  else if within 0xF0 0xF4 n then
    ({| bytes_needed := 3; bytes_seen := 0;
        lower_boundary := if (n =? 0xF0)%N then 0x90 else 0x80;
        upper_boundary := if (n =? 0xF4)%N then 0x8F else 0xBF;
        sequence := String byte "" |}, "")
  else (start, replacement).

(** One byte: the next state and what is emitted. *)
Definition step (d : decoder) (byte : ascii) : decoder * string :=
  if (bytes_needed d =? 0)%N then lead byte
  else if negb (within (lower_boundary d) (upper_boundary d) (Ascii.N_of_ascii byte)) then
    (* an error; the byte is read again from the start state *)
    let '(d', out) := lead byte in (d', replacement +:+ out)
  else
    let sequence := sequence d +:+ String byte "" in
    if (bytes_seen d + 1 =? bytes_needed d)%N then (start, sequence)
    else ({| bytes_needed := bytes_needed d; bytes_seen := bytes_seen d + 1;
             lower_boundary := 0x80; upper_boundary := 0xBF;
             sequence := sequence |}, "").

Fixpoint run (d : decoder) (bytes : string) : string :=
  match bytes with
  | "" => if (bytes_needed d =? 0)%N then "" else replacement
  | String byte bytes' => let '(d', out) := step d byte in out +:+ run d' bytes'
  end.

Definition decode (bytes : string) : string := run start bytes.

(** Well-formed UTF-8 byte sequences (the Unicode Standard, table 3-7). *)
Definition continuation (lo hi : N) (byte : ascii) : bool :=
  within lo hi (Ascii.N_of_ascii byte).

Fixpoint well_formed (bytes : string) : bool :=
  match bytes with
  | "" => true
  | String b1 rest1 =>
      let n := Ascii.N_of_ascii b1 in
      if within 0x00 0x7F n then well_formed rest1
      else match rest1 with
      | "" => false
      | String b2 rest2 =>
          if within 0xC2 0xDF n then
            continuation 0x80 0xBF b2 && well_formed rest2
          else match rest2 with
          | "" => false
          | String b3 rest3 =>
              if within 0xE0 0xEF n then
                continuation (if (n =? 0xE0)%N then 0xA0 else 0x80)
                             (if (n =? 0xED)%N then 0x9F else 0xBF) b2 &&
                continuation 0x80 0xBF b3 && well_formed rest3
              else match rest3 with
              | "" => false
              | String b4 rest4 =>
                  if within 0xF0 0xF4 n then
                    continuation (if (n =? 0xF0)%N then 0x90 else 0x80)
                                 (if (n =? 0xF4)%N then 0x8F else 0xBF) b2 &&
                    continuation 0x80 0xBF b3 && continuation 0x80 0xBF b4 &&
                    well_formed rest4
                  else false
              end
          end
      end
  end.

End UTF8.

(** *** Plain URLs *)

Module PlainURL.

Fixpoint split_on (sep s : string) : option (string * string) :=
  if String.prefix sep s then
    Some ("", String.substring (String.length sep)
                (String.length s - String.length sep) s)
  else match s with
       | "" => None
       | String c s' =>
           match split_on sep s' with
           | Some (before, after) => Some (String c before, after)
           | None => None
           end
       end.

(** The longest prefix without a byte of [stops], and the rest. *)
Fixpoint span (stops : list ascii) (s : string) : string * string :=
  match s with
  | "" => ("", "")
  | String c s' =>
      if bool_decide (c ∈ stops) then ("", s)
      else let '(taken, rest) := span stops s' in (String c taken, rest)
  end.

Definition letter (c : ascii) : bool :=
  let n := Ascii.N_of_ascii c in
  ((0x41 <=? n)%N && (n <=? 0x5A)%N) || ((0x61 <=? n)%N && (n <=? 0x7A)%N).

Fixpoint letters (s : string) : bool :=
  match s with
  | "" => true
  | String c s' => letter c && letters s'
  end.

(** A reader for URLs of the plain shape [scheme://authority/path?query#fragment]
    (letters for the scheme, an authority that is not empty), on which it
    gives the path the URL Standard gives; every other input is refused. *)
Definition parse (input : string) : option URL :=
  match split_on "://" input with
  | Some (scheme, rest) =>
      if negb (String.eqb scheme "") && letters scheme then
        let '(authority, tail) := span ["/"; "?"; "#"]%char rest in
        if String.eqb authority "" then None
        else
          let '(path, _) := span ["?"; "#"]%char tail in
          Some {| pathname := if String.eqb path "" then "/" else path |}
      else None
  | None => None
  end.

End PlainURL.

Definition plain_runtime : Runtime :=
  {| parseURL := PlainURL.parse; utf8_decode := UTF8.decode |}.

(** ** Example states *)

Module Examples.

(** A process in [/app] with the given variables and files, nothing printed
    yet, and no write refused. *)
Definition world (vars : list (string * string)) (files : list (string * node)) : World :=
  {| cwd := "/app";
     env := list_to_map vars;
     fs := {| nodes := list_to_map files; refused := λ _, None |};
     console := [] |}.

Definition medusa_config : node :=
  File ("module.exports = defineConfig({ modules: [{ resolve: '@medusajs/medusa/auth', "
        +:+ "options: { providers: [{ resolve: '@medusajs/medusa/auth-google', id: 'google' }] } }] })").

(** Everything in place. *)
Definition configured : World :=
  world [("GOOGLE_CLIENT_ID", "1234-abcd.apps.googleusercontent.com");
         ("GOOGLE_CLIENT_SECRET", "GOCSPX-0123456789");
         ("GOOGLE_CALLBACK_URL", "http://localhost:8000/auth/callback")]
        [("/app/medusa-config.ts", medusa_config)].

(** The same without GOOGLE_CLIENT_ID. *)
Definition missing_id : World :=
  world [("GOOGLE_CLIENT_SECRET", "GOCSPX-0123456789");
         ("GOOGLE_CALLBACK_URL", "http://localhost:8000/auth/callback")]
        [("/app/medusa-config.ts", medusa_config)].

(** Values that are no credentials and no URL. *)
Definition blank : World :=
  world [("GOOGLE_CLIENT_ID", "   ");
         ("GOOGLE_CLIENT_SECRET", "?");
         ("GOOGLE_CALLBACK_URL", "not-a-url")]
        [].

Definition callback (value : string) : World :=
  world [("GOOGLE_CALLBACK_URL", value)] [].

Definition template : string :=
  "GOOGLE_CLIENT_ID=your_google_client_id" +:+ LF +:+
  "GOOGLE_CLIENT_SECRET=your_google_client_secret" +:+ LF +:+
  "GOOGLE_CALLBACK_URL=http://localhost:8000/auth/callback" +:+ LF.

(** A fresh checkout: a template and no [.env]. *)
Definition fresh : World := world [] [("/app/.env.template", File template)].

(** A template that is not UTF-8: the single byte FF. *)
Definition latin1_template : World :=
  world [] [("/app/.env.template", File (String (ascii_of_N 0xFF) ""))].

Definition EACCES : Error :=
  {| error_name := "Error";
     error_message := "EACCES: permission denied, open '/app/.env.template'" |}.

(** A template that exists and may not be read. *)
Definition locked_template : World :=
  world [] [("/app/.env.template", Unreadable EACCES)].



(** A directory without [.env] and without template. *)
Definition bare : World := world [] [].

(** The state [configured] seen from another directory, with one more
    variable, one more file and lines already printed. *)
Definition configured_elsewhere : World :=
  {| cwd := "/srv/backend";
     env := <["NODE_ENV" := "production"]> (env configured);
     fs := {| nodes := {[ "/srv/backend/medusa-config.ts" := medusa_config;
                          "/srv/backend/.env" := File "" ]};
              refused := λ _, None |};
     console := [Log "bun run validate"] |}.

End Examples.

(** * Proofs *)

(** ** Strings *)

Lemma append_nil_l (s : string) : "" +:+ s = s.
Proof. reflexivity. Qed.

Lemma append_cons (c : ascii) (s t : string) :
  String c s +:+ t = String c (s +:+ t).
Proof. reflexivity. Qed.

Lemma append_assoc (s t u : string) : (s +:+ t) +:+ u = s +:+ t +:+ u.
Proof.
  induction s as [|c s IH]; [done |]. rewrite !append_cons. by f_equal.
Qed.

Lemma prefix_append (needle rest : string) :
  String.prefix needle (needle +:+ rest) = true.
Proof.
  induction needle as [|c needle IH]; simpl.
  - by destruct rest.
  - destruct (ascii_dec c c); [exact IH | done].
Qed.

Lemma prefix_split (needle s : string) :
  String.prefix needle s = true → ∃ rest, s = needle +:+ rest.
Proof.
  revert s. induction needle as [|c needle IH]; intros s Hp.
  - by exists s.
  - destruct s as [|d s]; simpl in Hp; [done |].
    destruct (ascii_dec c d) as [-> |]; [| done].
    destruct (IH s Hp) as [rest ->]. by exists rest.
Qed.

Lemma includes_unfold (s needle : string) :
  includes s needle =
    if String.prefix needle s then true
    else match s with
         | "" => false
         | String _ s' => includes s' needle
         end.
Proof. by destruct s. Qed.

(** [includes] decides [contains]. *)
Lemma includes_contains (s needle : string) :
  includes s needle = true ↔ contains s needle.
Proof.
  split.
  - induction s as [|c s IH]; rewrite includes_unfold;
      destruct (String.prefix needle _) eqn:Hp.
    + intros _. apply prefix_split in Hp as [rest ->]. by exists "", rest.
    + done.
    + intros _. apply prefix_split in Hp as [rest ->]. by exists "", rest.
    + intros Hi. destruct (IH Hi) as (before & after & ->).
      by exists (String c before), after.
  - intros (before & after & ->).
    induction before as [|c before IH]; rewrite includes_unfold.
    + change ("" +:+ needle +:+ after) with (needle +:+ after).
      by rewrite prefix_append.
    + destruct (String.prefix needle _); [done | exact IH].
Qed.

Lemma includes_not_contains (s needle : string) :
  includes s needle = false ↔ ¬ contains s needle.
Proof.
  rewrite <- includes_contains. by destruct (includes s needle).
Qed.

Lemma contains_append_r (prefix s needle : string) :
  contains s needle → contains (prefix +:+ s) needle.
Proof.
  intros (before & after & ->). exists (prefix +:+ before), after.
  by rewrite append_assoc.
Qed.

Lemma contains_self (s : string) : contains s s.
Proof.
  exists "", "". rewrite append_nil_l.
  induction s as [|c s IH]; [done |]. rewrite append_cons. by f_equal.
Qed.

Lemma falsy_spec (value : option string) :
  falsy value = true ↔ value = None ∨ value = Some "".
Proof.
  destruct value as [[|c s]|]; simpl; split; try done; auto; intros [|]; done.
Qed.

(** ** Effects *)

Lemma printed_printed (w : World) (xs ys : list output) :
  printed (printed w xs) ys = printed w (xs ++ ys).
Proof. unfold printed. simpl. by rewrite app_assoc. Qed.

(** A loop whose body pushes one result that depends on the world alone, and
    leaves the world as it is. *)
Lemma for_of_push {A R} (f : A → World → R) (body : A → list R → M (list R))
    (xs : list A) (results : list R) (w : World) :
  (∀ x rs, body x rs w = (Ok (rs ++ [f x w]), w)) →
  for_of xs body results w = (Ok (results ++ map (λ x, f x w) xs), w).
Proof.
  intros Hbody. revert results.
  induction xs as [|x xs IH]; intros results; simpl.
  - by rewrite app_nil_r.
  - unfold bind. rewrite Hbody, IH. by rewrite <- app_assoc.
Qed.

(** ** UTF-8 *)

Section utf8_proofs.
Import UTF8.

Lemma UTF8_run_cons (d : decoder) (byte : ascii) (bytes : string) :
  run d (String byte bytes) =
    let '(d', out) := step d byte in out +:+ run d' bytes.
Proof. reflexivity. Qed.

(** A continuation byte that is not the last one of its sequence. *)
Lemma UTF8_step_continue (d : decoder) (byte : ascii) :
  bytes_needed d ≠ 0%N →
  within (lower_boundary d) (upper_boundary d) (N_of_ascii byte) = true →
  (bytes_seen d + 1)%N ≠ bytes_needed d →
  step d byte =
    ({| bytes_needed := bytes_needed d; bytes_seen := bytes_seen d + 1;
        lower_boundary := 0x80; upper_boundary := 0xBF;
        sequence := sequence d +:+ String byte "" |}, "").
Proof.
  intros Hneeded Hwithin Hseen. unfold step.
  rewrite (proj2 (N.eqb_neq _ _) Hneeded), Hwithin. simpl.
  by rewrite (proj2 (N.eqb_neq _ _) Hseen).
Qed.

(** The last continuation byte of a sequence. *)
Lemma UTF8_step_last (d : decoder) (byte : ascii) :
  bytes_needed d ≠ 0%N →
  within (lower_boundary d) (upper_boundary d) (N_of_ascii byte) = true →
  (bytes_seen d + 1)%N = bytes_needed d →
  step d byte = (start, sequence d +:+ String byte "").
Proof.
  intros Hneeded Hwithin Hseen. unfold step.
  rewrite (proj2 (N.eqb_neq _ _) Hneeded), Hwithin. simpl.
  by rewrite (proj2 (N.eqb_eq _ _) Hseen).
Qed.

Lemma UTF8_decode_well_formed_upto (n : nat) (bytes : string) :
  String.length bytes ≤ n → well_formed bytes = true → run start bytes = bytes.
Proof.
  revert bytes. induction n as [|n IH]; intros bytes Hlen Hwf.
  { destruct bytes; [done | simpl in Hlen; lia]. }
  destruct bytes as [|b1 rest1]; [done |].
  cbn [well_formed] in Hwf. rewrite UTF8_run_cons.
  change (step start b1) with (lead b1). unfold lead.
  destruct (within 0 127 (N_of_ascii b1)) eqn:E1.
  { rewrite append_cons, append_nil_l, IH; [done | simpl in Hlen; lia | done]. }
  destruct rest1 as [|b2 rest2]; [done |].
  destruct (within 194 223 (N_of_ascii b1)) eqn:E2.
  { apply andb_true_iff in Hwf as [Hc2 Hwf].
    rewrite append_nil_l, UTF8_run_cons, UTF8_step_last by done.
    cbn [sequence]. rewrite !append_cons, append_nil_l, IH; [done | simpl in Hlen; lia | done]. }
  destruct rest2 as [|b3 rest3]; [done |].
  destruct (within 224 239 (N_of_ascii b1)) eqn:E3.
  { apply andb_true_iff in Hwf as [Hwf Hwf3].
    apply andb_true_iff in Hwf as [Hc2 Hc3].
    rewrite append_nil_l, UTF8_run_cons, UTF8_step_continue by done.
    rewrite append_nil_l, UTF8_run_cons, UTF8_step_last by done.
    cbn [sequence]. rewrite !append_cons, !append_nil_l, IH; [done | simpl in Hlen; lia | done]. }
  destruct rest3 as [|b4 rest4]; [done |].
  destruct (within 240 244 (N_of_ascii b1)) eqn:E4; [| done].
  apply andb_true_iff in Hwf as [Hwf Hwf4].
  apply andb_true_iff in Hwf as [Hwf Hc4].
  apply andb_true_iff in Hwf as [Hc2 Hc3].
  rewrite append_nil_l, UTF8_run_cons, UTF8_step_continue by done.
  rewrite append_nil_l, UTF8_run_cons, UTF8_step_continue by done.
  rewrite append_nil_l, UTF8_run_cons, UTF8_step_last by done.
  cbn [sequence]. rewrite !append_cons, !append_nil_l, IH; [done | simpl in Hlen; lia | done].
Qed.

(** Decoding leaves well-formed UTF-8 as it is. *)
Lemma UTF8_decode_well_formed (bytes : string) :
  well_formed bytes = true → decode bytes = bytes.
Proof. by apply (UTF8_decode_well_formed_upto (String.length bytes)). Qed.

End utf8_proofs.

(** ** The validation script *)

Section validate_proofs.
Context `{Runtime}.
Import Validate.

(** The environment-variable check reads the environment and changes
    nothing. *)
Lemma validateEnvironmentVariables_run (w : World) :
  validateEnvironmentVariables w =
    (Ok (map (λ varName, envResult varName (env w !! varName)) requiredVars), w).
Proof.
  unfold validateEnvironmentVariables, bind at 1.
  rewrite (for_of_push (λ varName w, envResult varName (env w !! varName))).
  { done. }
  intros varName rs.
  unfold bind, process_env, ret, push, envResult.
  destruct (env w !! varName) as [[|c text]|]; simpl; [done | | done].
  by destruct (placeholder (String c text)).
Qed.

(** The callback-URL check reads one variable and changes nothing; the error
    of [new URL] is caught. *)
Lemma validateCallbackUrl_run (w : World) :
  validateCallbackUrl w =
    (Ok (callbackResult (env w !! "GOOGLE_CALLBACK_URL")), w).
Proof.
  unfold validateCallbackUrl, bind at 1. unfold process_env, callbackResult.
  destruct (env w !! "GOOGLE_CALLBACK_URL") as [[|c text]|]; simpl; [done | | done].
  unfold try_catch, bind, new_URL.
  destruct (parseURL (String c text)) as [url|]; simpl; [| done].
  by destruct (includes (pathname url) "/auth/callback").
Qed.

(** The config-file check reads one entry of the file system and changes
    nothing; the error of [readFileSync] is caught. *)
Lemma checkConfigFile_run (w : World) :
  checkConfigFile w =
    (Ok (configResult (nodes (fs w) !! resolve (cwd w) "medusa-config.ts")), w).
Proof.
  unfold checkConfigFile, try_catch, bind, process_cwd, existsSync, readFileSync,
    configResult.
  destruct (nodes (fs w) !! resolve (cwd w) "medusa-config.ts") as [[bytes|e]|] eqn:E;
    simpl; rewrite ?E; [| done | done].
  by destruct (includes (utf8_decode bytes) "@medusajs/medusa/auth-google").
Qed.

Lemma forEach_log (results : list ValidationResult) (w : World) :
  forEach results (λ result, console_log ("  " +:+ message result)) w =
    (Ok tt, printed w (map (λ result, Log ("  " +:+ message result)) results)).
Proof.
  unfold forEach. revert w.
  induction results as [|r results IH]; intros w; simpl.
  - unfold ret, printed. rewrite app_nil_r. by destruct w.
  - unfold bind, console_log. rewrite IH. unfold printed. simpl.
    by rewrite <- app_assoc.
Qed.

(** The whole run: the header, the report, the closing lines, and the exit
    code from the number of failed results. *)
Lemma main_run (w : World) :
  let envResults := map (λ varName, envResult varName (env w !! varName)) requiredVars in
  let callbackResult := callbackResult (env w !! "GOOGLE_CALLBACK_URL") in
  let configResult := configResult (nodes (fs w) !! resolve (cwd w) "medusa-config.ts") in
  let failed := failures (allResults envResults callbackResult configResult) in
  Validate.main w =
    (Exit (if Nat.eqb failed 0 then 0 else 1)%Z,
     printed w ([Log ("🔍 Validating Google Auth Integration..." +:+ LF)] ++
                report envResults callbackResult configResult ++
                closing failed)).
Proof.
  intros envResults callbackResult configResult failed.
  unfold Validate.main.
  unfold bind at 1. unfold console_log at 1.
  unfold bind at 1. rewrite validateEnvironmentVariables_run.
  unfold bind at 1. rewrite validateCallbackUrl_run.
  unfold bind at 1. rewrite checkConfigFile_run.
  change (env (printed w _)) with (env w).
  change (fs (printed w _)) with (fs w).
  change (cwd (printed w _)) with (cwd w).
  fold envResults callbackResult configResult.
  unfold bind at 1. unfold console_log at 1.
  unfold bind at 1. rewrite forEach_log.
  unfold bind at 1 2 3 4. unfold console_log at 1 2 3 4.
  rewrite !printed_printed.
  unfold closing, report. subst failed. unfold failures.
  destruct (Nat.eqb (length _) 0);
    unfold bind, console_log, process_exit; rewrite !printed_printed;
    do 2 f_equal; by rewrite <- !app_assoc.
Qed.

Lemma placeholder_spec (value : string) :
  placeholder value = true ↔
    contains value "your_" ∨ contains value "_here" ∨
    value = "your_google_client_id" ∨ value = "your_google_client_secret".
Proof.
  unfold placeholder. rewrite !orb_true_iff, !includes_contains, !String.eqb_eq.
  tauto.
Qed.

Lemma envResult_rule (varName : string) (value : option string) :
  env_rule varName value (envResult varName value).
Proof.
  unfold env_rule, envResult. split; [| split].
  - by intros [-> | ->].
  - intros text -> Hne Hp. apply placeholder_spec in Hp.
    destruct text; [done |]. by rewrite Hp.
  - intros text -> Hne Hp. rewrite <- placeholder_spec in Hp.
    destruct text; [done |]. by destruct (placeholder _).
Qed.

Lemma failures_zero (results : list ValidationResult) :
  failures results = 0 ↔ Forall (λ r, success r = true) results.
Proof.
  unfold failures. induction results as [|r results IH]; simpl.
  - split; [constructor | done].
  - rewrite Forall_cons. destruct (success r); simpl.
    + rewrite IH. tauto.
    + split; [done | by intros [? _]].
Qed.

Lemma failures_positive (results : list ValidationResult) :
  failures results ≠ 0 ↔ Exists (λ r, success r = false) results.
Proof.
  rewrite failures_zero. split.
  - intros Hn. induction results as [|r results IH].
    + destruct Hn. constructor.
    + destruct (success r) eqn:E.
      * apply Exists_cons_tl, IH. intros Hall. apply Hn. by constructor.
      * by apply Exists_cons_hd.
  - intros Hex Hall. induction Hex as [r results E | r results _ IH].
    + apply Forall_cons in Hall as [E' _]. congruence.
    + apply Forall_cons in Hall as [_ Hall]. by apply IH.
Qed.

(** C1. The verdict of the validation script is the conjunction of the five
    results (three for the environment variables, one for the callback URL,
    one for the config file): the process exits with code 0 exactly when
    every result has [success = true], and with code 1 exactly when some
    result has [success = false]. *)
Theorem main_verdict (w : World) :
  ∃ r1 r2 r3 callback config,
    validateEnvironmentVariables w = (Ok [r1; r2; r3], w) ∧
    validateCallbackUrl w = (Ok callback, w) ∧
    checkConfigFile w = (Ok config, w) ∧
    ((Validate.main w).1 = Exit 0%Z ↔
       Forall (λ r, success r = true) [r1; r2; r3; callback; config]) ∧
    ((Validate.main w).1 = Exit 1%Z ↔
       Exists (λ r, success r = false) [r1; r2; r3; callback; config]).
Proof.
  eexists _, _, _, _, _.
  split; [apply validateEnvironmentVariables_run |].
  split; [apply validateCallbackUrl_run |].
  split; [apply checkConfigFile_run |].
  rewrite main_run. cbn [fst allResults map requiredVars app].
  rewrite <- failures_zero, <- failures_positive.
  destruct (failures _) as [|n]; simpl; split; split; done.
Qed.

(** C6. Every run aggregates exactly five results in a fixed order: the
    results for GOOGLE_CLIENT_ID, GOOGLE_CLIENT_SECRET and
    GOOGLE_CALLBACK_URL, then the callback-URL result, then the config-file
    result; the report prints them under the three headings in that order,
    and the closing lines count the failures of that sequence. *)
Theorem main_aggregation (w : World) :
  ∃ r1 r2 r3 callback config,
    validateEnvironmentVariables w = (Ok [r1; r2; r3], w) ∧
    env_rule "GOOGLE_CLIENT_ID" (env w !! "GOOGLE_CLIENT_ID") r1 ∧
    env_rule "GOOGLE_CLIENT_SECRET" (env w !! "GOOGLE_CLIENT_SECRET") r2 ∧
    env_rule "GOOGLE_CALLBACK_URL" (env w !! "GOOGLE_CALLBACK_URL") r3 ∧
    validateCallbackUrl w = (Ok callback, w) ∧
    checkConfigFile w = (Ok config, w) ∧
    allResults [r1; r2; r3] callback config = [r1; r2; r3; callback; config] ∧
    length (allResults [r1; r2; r3] callback config) = 5 ∧
    (Validate.main w).2 =
      printed w
        ([Log ("🔍 Validating Google Auth Integration..." +:+ LF);
          Log "Environment Variables:";
          Log ("  " +:+ message r1);
          Log ("  " +:+ message r2);
          Log ("  " +:+ message r3);
          Log (LF +:+ "Callback URL:");
          Log ("  " +:+ message callback);
          Log (LF +:+ "Configuration:");
          Log ("  " +:+ message config)] ++
         closing (failures [r1; r2; r3; callback; config])).
Proof.
  eexists _, _, _, _, _.
  split; [apply validateEnvironmentVariables_run |].
  do 3 (split; [apply envResult_rule |]).
  split; [apply validateCallbackUrl_run |].
  split; [apply checkConfigFile_run |].
  split; [done |]. split; [done |].
  by rewrite main_run.
Qed.

(** C2. The environment-variable check gives exactly one result for each of
    GOOGLE_CLIENT_ID, GOOGLE_CLIENT_SECRET and GOOGLE_CALLBACK_URL, in that
    order: a failure naming the variable when it is unset or empty, a failure
    citing a placeholder when its value contains [your_] or [_here] or is one
    of the two placeholder literals, and a success otherwise. *)
Theorem validateEnvironmentVariables_rules (w : World) :
  requiredVars = ["GOOGLE_CLIENT_ID"; "GOOGLE_CLIENT_SECRET"; "GOOGLE_CALLBACK_URL"] ∧
  ∃ r1 r2 r3,
    validateEnvironmentVariables w = (Ok [r1; r2; r3], w) ∧
    env_rule "GOOGLE_CLIENT_ID" (env w !! "GOOGLE_CLIENT_ID") r1 ∧
    env_rule "GOOGLE_CLIENT_SECRET" (env w !! "GOOGLE_CLIENT_SECRET") r2 ∧
    env_rule "GOOGLE_CALLBACK_URL" (env w !! "GOOGLE_CALLBACK_URL") r3.
Proof.
  split; [done |]. eexists _, _, _.
  split; [apply validateEnvironmentVariables_run |].
  do 2 (split; [apply envResult_rule |]). apply envResult_rule.
Qed.

(** Both placeholder literals contain [your_]. *)
Lemma literal_includes_your (value : string) :
  value = "your_google_client_id" ∨ value = "your_google_client_secret" →
  includes value "your_" = true.
Proof. by intros [-> | ->]. Qed.

(** C9. The placeholder test is the two substring tests alone: both
    placeholder literals contain [your_], so the two equality tests add
    nothing. *)
Theorem placeholder_redundant (value : string) :
  placeholder value = placeholder_substrings value ∧
  (contains value "your_" ∨ contains value "_here" ∨
   value = "your_google_client_id" ∨ value = "your_google_client_secret"
   ↔ contains value "your_" ∨ contains value "_here").
Proof.
  pose proof (literal_includes_your value) as Hlit.
  split.
  - unfold placeholder, placeholder_substrings.
    rewrite <- !String.eqb_eq in Hlit.
    destruct (includes value "your_"); [done |].
    destruct (String.eqb value "your_google_client_id");
      [by discriminate Hlit; left |].
    destruct (String.eqb value "your_google_client_secret");
      [by discriminate Hlit; right |].
    by rewrite !orb_false_r.
  - rewrite <- !includes_contains. intuition.
Qed.

Lemma not_placeholder (text : string) :
  ¬ contains text "your_" → ¬ contains text "_here" → placeholder text = false.
Proof.
  intros Hyour Hhere. destruct (placeholder text) eqn:E; [| done].
  apply placeholder_spec in E as [E | [E | E]]; [done | done |].
  by apply literal_includes_your, includes_contains in E.
Qed.

(** C10. The environment-variable check looks at nothing but emptiness and
    the placeholder substrings: a value that is not empty and contains
    neither [your_] nor [_here], whatever else it is (blank, not a
    credential, not a URL), gives for its variable the success
    "is configured". *)
Theorem configured_without_format_check (w : World) (i : nat)
    (varName text : string) :
  requiredVars !! i = Some varName →
  env w !! varName = Some text →
  text ≠ "" →
  ¬ contains text "your_" →
  ¬ contains text "_here" →
  ∃ results,
    validateEnvironmentVariables w = (Ok results, w) ∧
    length results = 3 ∧
    results !! i =
      Some {| success := true; message := "✅ " +:+ varName +:+ " is configured" |}.
Proof.
  intros Hi Hvalue Hne Hyour Hhere. eexists.
  split; [apply validateEnvironmentVariables_run |]. split; [done |].
  rewrite list_lookup_fmap, Hi. simpl. rewrite Hvalue. unfold envResult.
  destruct text as [|c text]; [done |].
  by rewrite not_placeholder.
Qed.

(** C3. For a callback URL that parses, the check succeeds exactly when the
    path of the parsed URL contains [/auth/callback] (anywhere in it); the
    success message repeats the URL as given, and the failure message gives
    the expected suffix and the path found. *)
Theorem validateCallbackUrl_path (w : World) (value : string) (url : URL) :
  parseURL "" = None →
  env w !! "GOOGLE_CALLBACK_URL" = Some value →
  parseURL value = Some url →
  ∃ r,
    validateCallbackUrl w = (Ok r, w) ∧
    (success r = true ↔ contains (pathname url) "/auth/callback") ∧
    (success r = true →
       message r = "✅ GOOGLE_CALLBACK_URL is properly formatted: " +:+ value) ∧
    (success r = false →
       message r =
         "❌ GOOGLE_CALLBACK_URL should end with '/auth/callback', got: "
           +:+ pathname url).
Proof.
  intros Hempty Hvalue Hurl. eexists.
  split; [apply validateCallbackUrl_run |].
  rewrite Hvalue. unfold callbackResult.
  destruct value as [|c value]; [congruence |]. rewrite Hurl.
  rewrite <- includes_contains.
  by destruct (includes (pathname url) "/auth/callback").
Qed.

(** C5. The callback-URL check always returns a result and throws nothing:
    "not set" when the variable is absent, and for a value that does not
    parse as a URL a failure whose message includes that value, the parse
    error having been caught. *)
Theorem validateCallbackUrl_total (w : World) :
  ∃ r,
    validateCallbackUrl w = (Ok r, w) ∧
    (env w !! "GOOGLE_CALLBACK_URL" = None →
       r = {| success := false; message := "❌ GOOGLE_CALLBACK_URL is not set" |}) ∧
    (∀ value,
       env w !! "GOOGLE_CALLBACK_URL" = Some value →
       parseURL value = None →
       success r = false ∧
       contains (message r) value ∧
       (value ≠ "" →
          message r = "❌ GOOGLE_CALLBACK_URL is not a valid URL: " +:+ value)).
Proof.
  eexists. split; [apply validateCallbackUrl_run |]. split.
  - by intros ->.
  - intros value -> Hurl. unfold callbackResult.
    destruct value as [|c value].
    + split; [done |]. split; [| done]. by eexists "", _.
    + rewrite Hurl. split; [done |]. split; [| done].
      apply contains_append_r, contains_self.
Qed.

(** C8. The callback-URL check is deterministic and idempotent: it changes
    nothing, and in two states with the same environment (the second may be
    the state the first evaluation left) it gives the same result, flag and
    message. *)
Theorem validateCallbackUrl_idempotent (w w' : World) :
  env w = env w' →
  ∃ r,
    validateCallbackUrl w = (Ok r, w) ∧
    validateCallbackUrl w' = (Ok r, w') ∧
    validateCallbackUrl (validateCallbackUrl w).2 = (Ok r, w).
Proof.
  intros Henv. eexists. split; [apply validateCallbackUrl_run |].
  rewrite !validateCallbackUrl_run. simpl. by rewrite Henv.
Qed.

(** C4. The config-file check succeeds exactly when [medusa-config.ts]
    exists, can be read, and its text contains
    [@medusajs/medusa/auth-google]; a missing file gives the failure
    "not found", a failed read gives a failure with the error's text, and
    the check always returns a result: no error leaves it. *)
Theorem checkConfigFile_rules (w : World) :
  let entry := nodes (fs w) !! resolve (cwd w) "medusa-config.ts" in
  ∃ r,
    checkConfigFile w = (Ok r, w) ∧
    (success r = true ↔
       ∃ bytes, entry = Some (File bytes) ∧
         contains (utf8_decode bytes) "@medusajs/medusa/auth-google") ∧
    (entry = None →
       r = {| success := false; message := "❌ medusa-config.ts file not found" |}) ∧
    (∀ e, entry = Some (Unreadable e) →
       r = {| success := false;
              message := "❌ Error reading medusa-config.ts: " +:+ error_message e |}) ∧
    (∀ bytes, entry = Some (File bytes) →
       ¬ contains (utf8_decode bytes) "@medusajs/medusa/auth-google" →
       r = {| success := false;
              message := "❌ Google Auth Module not found in medusa-config.ts" |}).
Proof.
  intros entry. eexists. split; [apply checkConfigFile_run |].
  fold entry. destruct entry as [[bytes|e]|]; simpl.
  - destruct (includes (utf8_decode bytes) "@medusajs/medusa/auth-google") eqn:E.
    + apply includes_contains in E. repeat split; try done.
      * intros _. by exists bytes.
      * intros bytes' [= <-] Hn. done.
    + apply includes_not_contains in E. repeat split; try done.
      intros (bytes' & [= <-] & Hc). done.
  - repeat split; try done.
    + by intros (bytes & ? & _).
    + by intros e' [= <-].
  - repeat split; try done. by intros (bytes & ? & _).
Qed.

End validate_proofs.

(** ** The setup script *)

Section setup_proofs.
Context `{Runtime}.
Import Setup.

(** The two lines every run starts with. *)
Lemma createEnvFile_exists (w : World) :
  is_Some (nodes (fs w) !! resolve (cwd w) ".env") →
  createEnvFile w =
    (Ok tt, printed w (checking w ++ already_exists)).
Proof.
  intros Hfound.
  unfold createEnvFile, bind, process_cwd, console_log, existsSync, ret. simpl.
  rewrite bool_decide_eq_true_2 by done.
  by rewrite !printed_printed.
Qed.

Lemma createEnvFile_no_template (w : World) :
  nodes (fs w) !! resolve (cwd w) ".env" = None →
  nodes (fs w) !! resolve (cwd w) ".env.template" = None →
  createEnvFile w = (Ok tt, printed w (checking w ++ template_not_found)).
Proof.
  intros Henv Htemplate.
  unfold createEnvFile, bind, process_cwd, console_log, existsSync, ret. simpl.
  rewrite Henv; simpl. rewrite Htemplate; simpl.
  by rewrite !printed_printed.
Qed.

Lemma createEnvFile_created (w : World) (bytes : string) :
  nodes (fs w) !! resolve (cwd w) ".env" = None →
  nodes (fs w) !! resolve (cwd w) ".env.template" = Some (File bytes) →
  refused (fs w) (resolve (cwd w) ".env") = None →
  createEnvFile w =
    (Ok tt,
     printed
       (written (printed w (checking w)) (resolve (cwd w) ".env") (utf8_decode bytes))
       created).
Proof.
  intros Henv Htemplate Hwrite.
  unfold createEnvFile, bind, process_cwd, console_log, existsSync, ret. simpl.
  rewrite Henv; simpl. rewrite Htemplate; simpl.
  unfold try_catch, bind, readFileSync, writeFileSync, console_log. simpl.
  rewrite Htemplate. simpl. rewrite Hwrite.
  by rewrite !printed_printed.
Qed.

Lemma createEnvFile_read_error (w : World) (e : Error) :
  nodes (fs w) !! resolve (cwd w) ".env" = None →
  nodes (fs w) !! resolve (cwd w) ".env.template" = Some (Unreadable e) →
  createEnvFile w =
    (Ok tt, printed w (checking w ++ [ErrorLog "❌ Error creating .env file:" e])).
Proof.
  intros Henv Htemplate.
  unfold createEnvFile, bind, process_cwd, console_log, existsSync, ret. simpl.
  rewrite Henv; simpl. rewrite Htemplate; simpl.
  unfold try_catch, bind, readFileSync, console_error. simpl.
  rewrite Htemplate. by rewrite !printed_printed.
Qed.

Lemma createEnvFile_write_error (w : World) (bytes : string) (e : Error) :
  nodes (fs w) !! resolve (cwd w) ".env" = None →
  nodes (fs w) !! resolve (cwd w) ".env.template" = Some (File bytes) →
  refused (fs w) (resolve (cwd w) ".env") = Some e →
  createEnvFile w =
    (Ok tt, printed w (checking w ++ [ErrorLog "❌ Error creating .env file:" e])).
Proof.
  intros Henv Htemplate Hwrite.
  unfold createEnvFile, bind, process_cwd, console_log, existsSync, ret. simpl.
  rewrite Henv; simpl. rewrite Htemplate; simpl.
  unfold try_catch, bind, readFileSync, writeFileSync, console_error. simpl.
  rewrite Htemplate. simpl. rewrite Hwrite. by rewrite !printed_printed.
Qed.

(** C7 (amended). With no [.env], a [.env.template] that can be read and a
    write that is not refused, the run creates [.env] with the text of the
    template as read in UTF-8, which is byte for byte the template whenever
    that reading leaves its bytes as they are; a second run then says
    "already exists" and writes nothing.  Whenever [.env] exists, the run
    says "already exists" and leaves the file system as it is. *)
Theorem createEnvFile_copy (w : World) :
  let envPath := resolve (cwd w) ".env" in
  let templatePath := resolve (cwd w) ".env.template" in
  (∀ bytes,
     nodes (fs w) !! envPath = None →
     nodes (fs w) !! templatePath = Some (File bytes) →
     refused (fs w) envPath = None →
     ∃ w',
       createEnvFile w = (Ok tt, w') ∧
       nodes (fs w') = <[envPath := File (utf8_decode bytes)]> (nodes (fs w)) ∧
       (utf8_decode bytes = bytes → nodes (fs w') !! envPath = Some (File bytes)) ∧
       ∃ w'',
         createEnvFile w' = (Ok tt, w'') ∧
         fs w'' = fs w' ∧
         console w'' = console w' ++ checking w' ++ already_exists) ∧
  (is_Some (nodes (fs w) !! envPath) →
     ∃ w',
       createEnvFile w = (Ok tt, w') ∧
       fs w' = fs w ∧
       console w' = console w ++ checking w ++ already_exists).
Proof.
  intros envPath templatePath. split.
  - intros bytes Henv Htemplate Hwrite. eexists.
    split; [by apply createEnvFile_created |]. simpl.
    split; [done |].
    split; [intros ->; apply lookup_insert_eq |].
    eexists. split.
    + apply createEnvFile_exists. simpl. rewrite lookup_insert_eq. by eexists.
    + done.
  - intros Hfound. eexists. split; [by apply createEnvFile_exists | done].
Qed.

End setup_proofs.

(** ** The scripts on the example states *)

Section examples.
Import Validate Examples.
Existing Instance plain_runtime.

Example callback_accepted :
  validateCallbackUrl (callback "http://localhost:8000/auth/callback") =
    (Ok {| success := true;
           message := "✅ GOOGLE_CALLBACK_URL is properly formatted: http://localhost:8000/auth/callback" |},
     callback "http://localhost:8000/auth/callback").
Proof. reflexivity. Qed.

(** The path is searched, not its end alone. *)
Example callback_accepted_inside :
  validateCallbackUrl (callback "http://localhost:8000/auth/callback/google") =
    (Ok {| success := true;
           message := "✅ GOOGLE_CALLBACK_URL is properly formatted: http://localhost:8000/auth/callback/google" |},
     callback "http://localhost:8000/auth/callback/google").
Proof. reflexivity. Qed.

Example callback_wrong_path :
  validateCallbackUrl (callback "http://localhost:8000/wrong/path") =
    (Ok {| success := false;
           message := "❌ GOOGLE_CALLBACK_URL should end with '/auth/callback', got: /wrong/path" |},
     callback "http://localhost:8000/wrong/path").
Proof. reflexivity. Qed.

Example callback_not_a_url :
  validateCallbackUrl (callback "not-a-url") =
    (Ok {| success := false;
           message := "❌ GOOGLE_CALLBACK_URL is not a valid URL: not-a-url" |},
     callback "not-a-url").
Proof. reflexivity. Qed.

(** A variable that is set and empty counts as not set. *)
Example callback_empty :
  validateCallbackUrl (callback "") =
    (Ok {| success := false; message := "❌ GOOGLE_CALLBACK_URL is not set" |},
     callback "").
Proof. reflexivity. Qed.

Example configured_exit : (Validate.main configured).1 = Exit 0%Z.
Proof. reflexivity. Qed.

Example missing_id_exit :
  (Validate.main missing_id).1 = Exit 1%Z ∧
  Log (LF +:+ "❌ 1 validation(s) failed. Please fix the issues above.")
    ∈ console (Validate.main missing_id).2.
Proof.
  split; [reflexivity |]. vm_compute. do 9 apply list_elem_of_further.
  apply list_elem_of_here.
Qed.

Example blank_results :
  (validateEnvironmentVariables blank).1 =
    Ok [ {| success := true; message := "✅ GOOGLE_CLIENT_ID is configured" |};
         {| success := true; message := "✅ GOOGLE_CLIENT_SECRET is configured" |};
         {| success := true; message := "✅ GOOGLE_CALLBACK_URL is configured" |} ].
Proof. reflexivity. Qed.

Example fresh_copy :
  nodes (fs (Setup.createEnvFile fresh).2) !! "/app/.env" = Some (File template).
Proof. reflexivity. Qed.

Example latin1_copy :
  nodes (fs (Setup.createEnvFile latin1_template).2) !! "/app/.env" =
    Some (File UTF8.replacement).
Proof. reflexivity. Qed.

Example locked_copy :
  Setup.createEnvFile locked_template =
    (Ok tt,
     printed locked_template
       (Setup.checking locked_template ++
        [ErrorLog "❌ Error creating .env file:" EACCES])).
Proof. reflexivity. Qed.

End examples.

(** ** The theorems at the example states *)

Section instances.
Import Validate Examples.

(** X15. With the decoder of the Encoding Standard, a template of well-formed
    UTF-8 is copied byte for byte. *)
Lemma createEnvFile_utf8 (w : World) (bytes : string) :
  nodes (fs w) !! resolve (cwd w) ".env" = None →
  nodes (fs w) !! resolve (cwd w) ".env.template" = Some (File bytes) →
  refused (fs w) (resolve (cwd w) ".env") = None →
  UTF8.well_formed bytes = true →
  nodes (fs (@Setup.createEnvFile plain_runtime w).2) !! resolve (cwd w) ".env" =
    Some (File bytes).
Proof.
  intros Henv Htemplate Hwrite Hwf.
  rewrite (@createEnvFile_created plain_runtime w bytes) by done. simpl.
  rewrite lookup_insert_eq. by rewrite UTF8_decode_well_formed.
Qed.

(** C7, as the specification words it, fails: a template that is not
    well-formed UTF-8 (the byte FF) is copied as U+FFFD, and for a template
    that may not be read no [.env] is created. *)
Lemma createEnvFile_not_verbatim :
  ¬ @Setup.copies_verbatim plain_runtime latin1_template ∧
  ¬ @Setup.copies_verbatim plain_runtime locked_template.
Proof.
  split; intros Hclaim.
  - destruct (Hclaim eq_refl _ eq_refl) as (bytes & [= <-] & Hdest).
    vm_compute in Hdest. discriminate Hdest.
  - destruct (Hclaim eq_refl _ eq_refl) as (bytes & Htemplate & _).
    discriminate Htemplate.
Qed.

Lemma createEnvFile_copy_witness :
  ∃ w',
    @Setup.createEnvFile plain_runtime fresh = (Ok tt, w') ∧
    nodes (fs w') !! "/app/.env" = Some (File template) ∧
    ∃ w'',
      @Setup.createEnvFile plain_runtime w' = (Ok tt, w'') ∧ fs w'' = fs w'.
Proof.
  destruct (@createEnvFile_copy plain_runtime fresh) as [Hcopy _].
  destruct (Hcopy template) as (w' & Hrun & _ & Hsame & w'' & Hagain & Hfs & _);
    [reflexivity | reflexivity | reflexivity |].
  exists w'. split; [exact Hrun |]. split; [apply Hsame; reflexivity |].
  exists w''. split; [exact Hagain | exact Hfs].
Defined.

Lemma configured_without_format_check_witness :
  ∃ results,
    validateEnvironmentVariables blank = (Ok results, blank) ∧
    length results = 3 ∧
    results !! 0 =
      Some {| success := true; message := "✅ GOOGLE_CLIENT_ID is configured" |}.
Proof.
  apply (configured_without_format_check blank 0 "GOOGLE_CLIENT_ID" "   ").
  - reflexivity.
  - reflexivity.
  - discriminate.
  - apply includes_not_contains. reflexivity.
  - apply includes_not_contains. reflexivity.
Defined.

Lemma validateCallbackUrl_path_witness :
  ∃ r,
    @validateCallbackUrl plain_runtime configured = (Ok r, configured) ∧
    (success r = true ↔ contains "/auth/callback" "/auth/callback") ∧
    (success r = true →
       message r =
         "✅ GOOGLE_CALLBACK_URL is properly formatted: http://localhost:8000/auth/callback") ∧
    (success r = false →
       message r =
         "❌ GOOGLE_CALLBACK_URL should end with '/auth/callback', got: /auth/callback").
Proof.
  apply (@validateCallbackUrl_path plain_runtime configured
           "http://localhost:8000/auth/callback" {| pathname := "/auth/callback" |}).
  - reflexivity.
  - reflexivity.
  - reflexivity.
Defined.

Lemma validateCallbackUrl_idempotent_witness :
  ∃ r,
    @validateCallbackUrl plain_runtime configured = (Ok r, configured) ∧
    @validateCallbackUrl plain_runtime (printed configured [Log "Callback URL:"]) =
      (Ok r, printed configured [Log "Callback URL:"]) ∧
    @validateCallbackUrl plain_runtime (@validateCallbackUrl plain_runtime configured).2 =
      (Ok r, configured).
Proof.
  apply (@validateCallbackUrl_idempotent plain_runtime configured
           (printed configured [Log "Callback URL:"])).
  reflexivity.
Defined.

End instances.

(** ** More on the setup script *)

Section setup_more.
Context `{Runtime}.
Import Setup.


(** The five ways a run goes. *)
Lemma createEnvFile_cases (w : World) :
  let envPath := resolve (cwd w) ".env" in
  let templatePath := resolve (cwd w) ".env.template" in
  (is_Some (nodes (fs w) !! envPath) ∧
   createEnvFile w = (Ok tt, printed w (checking w ++ already_exists))) ∨
  (nodes (fs w) !! envPath = None ∧ nodes (fs w) !! templatePath = None ∧
   createEnvFile w = (Ok tt, printed w (checking w ++ template_not_found))) ∨
  (∃ e, nodes (fs w) !! envPath = None ∧
     (nodes (fs w) !! templatePath = Some (Unreadable e) ∨
      ∃ bytes, nodes (fs w) !! templatePath = Some (File bytes) ∧
               refused (fs w) envPath = Some e) ∧
     createEnvFile w =
       (Ok tt, printed w (checking w ++ [ErrorLog "❌ Error creating .env file:" e]))) ∨
  (∃ bytes, nodes (fs w) !! envPath = None ∧
     nodes (fs w) !! templatePath = Some (File bytes) ∧
     refused (fs w) envPath = None ∧
     createEnvFile w =
       (Ok tt, printed (written (printed w (checking w)) envPath (utf8_decode bytes))
                 created)).
Proof.
  intros envPath templatePath.
  destruct (nodes (fs w) !! envPath) as [n|] eqn:Henv.
  { left. split; [by eexists |]. apply createEnvFile_exists.
    fold envPath. rewrite Henv. by eexists. }
  right. destruct (nodes (fs w) !! templatePath) as [[bytes|e]|] eqn:Htemplate.
  - destruct (refused (fs w) envPath) as [e|] eqn:Hwrite.
    + right. left. exists e. split; [done |]. split; [right; by exists bytes |].
      by apply (createEnvFile_write_error w bytes e).
    + right. right. exists bytes. repeat (split; [done |]).
      by apply createEnvFile_created.
  - right. left. exists e. split; [done |]. split; [by left |].
    by apply createEnvFile_read_error.
  - left. repeat (split; [done |]). by apply createEnvFile_no_template.
Qed.

(** The file system a run leaves. *)
Lemma createEnvFile_fs (w : World) :
  fs (createEnvFile w).2 =
    match nodes (fs w) !! resolve (cwd w) ".env",
          nodes (fs w) !! resolve (cwd w) ".env.template",
          refused (fs w) (resolve (cwd w) ".env") with
    | None, Some (File bytes), None =>
        {| nodes := <[resolve (cwd w) ".env" := File (utf8_decode bytes)]>
                      (nodes (fs w));
           refused := refused (fs w) |}
    | _, _, _ => fs w
    end.
Proof.
  destruct (createEnvFile_cases w)
    as [[[n Hn] ->] | [(-> & -> & ->) | [(e & -> & Hwhy & ->) | (bytes & -> & -> & -> & ->)]]];
    simpl; [by rewrite Hn | done | | done].
  destruct Hwhy as [-> | (bytes & -> & ->)]; done.
Qed.

Lemma createEnvFile_cwd (w : World) : cwd (createEnvFile w).2 = cwd w.
Proof.
  destruct (createEnvFile_cases w)
    as [[_ ->] | [(_ & _ & ->) | [(e & _ & _ & ->) | (bytes & _ & _ & _ & ->)]]];
    done.
Qed.

Lemma createEnvFile_returns_ok (w : World) :
  ∃ w', createEnvFile w = (Ok tt, w') ∧ env w' = env w.
Proof.
  destruct (createEnvFile_cases w)
    as [[_ ->] | [(_ & _ & ->) | [(e & _ & _ & ->) | (bytes & _ & _ & _ & ->)]]];
    by eexists.
Qed.

(** X1. [createEnvFile] always returns: no error leaves it and the process
    is not exited, whatever the file system holds or refuses.  It changes
    neither the working directory nor the environment, and it only adds
    lines to the console, the two "Checking for" lines first. *)
Theorem createEnvFile_returns (w : World) :
  ∃ w' lines,
    createEnvFile w = (Ok tt, w') ∧
    cwd w' = cwd w ∧ env w' = env w ∧
    refused (fs w') = refused (fs w) ∧
    console w' = console w ++ checking w ++ lines.
Proof.
  destruct (createEnvFile_cases w)
    as [[_ Hrun] | [(_ & _ & Hrun) | [(e & _ & _ & Hrun) | (bytes & _ & _ & _ & Hrun)]]];
    rewrite Hrun; eexists _, _; (split; [done |]); repeat (split; [done |]);
    simpl; [done | done | done |].
  by rewrite <- app_assoc.
Qed.


(** X3. Without [.env] and without template, the run says that the template
    was not found, creates no [.env] and leaves the file system as it is. *)
Theorem createEnvFile_without_template (w : World) :
  nodes (fs w) !! resolve (cwd w) ".env" = None →
  nodes (fs w) !! resolve (cwd w) ".env.template" = None →
  createEnvFile w = (Ok tt, printed w (checking w ++ template_not_found)) ∧
  fs (createEnvFile w).2 = fs w ∧
  nodes (fs (createEnvFile w).2) !! resolve (cwd w) ".env" = None.
Proof.
  intros Henv Htemplate. rewrite createEnvFile_no_template by done. by simpl.
Qed.


(** The run of the script around [createEnvFile]. *)
Lemma setup_main_eq (w : World) :
  Setup.main w =
    (Ok tt,
     printed (createEnvFile (printed w [Log ("🚀 Google Auth Setup Utility" +:+ LF)])).2
       [Log (LF +:+ "🔍 Run " +:+ String (ascii_of_nat 34) "bun validate-google-auth.ts" +:+
             String (ascii_of_nat 34)
               " after updating your .env file to validate the configuration.")]).
Proof.
  unfold Setup.main, bind at 1. unfold console_log at 1. unfold bind at 1.
  destruct (createEnvFile_cases (printed w [Log ("🚀 Google Auth Setup Utility" +:+ LF)]))
    as [[_ ->] | [(_ & _ & ->) | [(e & _ & _ & ->) | (bytes & _ & _ & _ & ->)]]];
    done.
Qed.

Lemma setup_main_fs (w : World) : fs (Setup.main w).2 = fs (createEnvFile w).2.
Proof. rewrite setup_main_eq. simpl. by rewrite !createEnvFile_fs. Qed.

Lemma setup_main_cwd (w : World) : cwd (Setup.main w).2 = cwd w.
Proof. rewrite setup_main_eq. simpl. by rewrite createEnvFile_cwd. Qed.

(** X5. The setup script always ends normally (no error, no exit code set):
    it prints its title, runs [createEnvFile], and prints the hint to run the
    validation last, whatever [createEnvFile] found or failed to do. *)
Theorem setup_main_run (w : World) :
  ∃ w',
    createEnvFile (printed w [Log ("🚀 Google Auth Setup Utility" +:+ LF)]) = (Ok tt, w') ∧
    Setup.main w =
      (Ok tt,
       printed w'
         [Log (LF +:+ "🔍 Run " +:+ String (ascii_of_nat 34) "bun validate-google-auth.ts" +:+
               String (ascii_of_nat 34)
                 " after updating your .env file to validate the configuration.")]) ∧
    cwd (Setup.main w).2 = cwd w ∧
    env (Setup.main w).2 = env w ∧
    fs (Setup.main w).2 = fs (createEnvFile w).2.
Proof.
  destruct (createEnvFile_returns_ok (printed w [Log ("🚀 Google Auth Setup Utility" +:+ LF)]))
    as (w' & Hrun & Henv).
  exists w'. split; [exact Hrun |].
  rewrite setup_main_eq, Hrun. simpl.
  split; [done |]. split; [| split; [exact Henv |]].
  - change w' with (Ok tt, w').2. rewrite <- Hrun. by rewrite createEnvFile_cwd.
  - change w' with (Ok tt, w').2. rewrite <- Hrun. by rewrite !createEnvFile_fs.
Qed.

(** X6. Running the setup script twice leaves the file system the first run
    left: whatever the first run did (copied, found [.env], found no
    template, failed), the second one writes nothing. *)
Theorem setup_main_idempotent (w : World) :
  fs (Setup.main (Setup.main w).2).2 = fs (Setup.main w).2.
Proof.
  rewrite (setup_main_fs (Setup.main w).2), createEnvFile_fs.
  rewrite setup_main_cwd, setup_main_fs. rewrite createEnvFile_fs.
  destruct (nodes (fs w) !! resolve (cwd w) ".env") as [n|] eqn:Henv;
    [by rewrite Henv |].
  destruct (nodes (fs w) !! resolve (cwd w) ".env.template") as [[bytes|e]|] eqn:Ht;
    [| by rewrite Henv, Ht | by rewrite Henv, Ht].
  destruct (refused (fs w) (resolve (cwd w) ".env")) eqn:Hw;
    [by rewrite Henv, Ht, Hw |].
  simpl. by rewrite lookup_insert_eq.
Qed.

End setup_more.

(** ** More on the validation script *)

Section validate_more.
Context `{Runtime}.
Import Validate.

(** Membership in a list that is written out. *)
Local Ltac listed :=
  repeat first [apply list_elem_of_here | apply list_elem_of_further].

Lemma contains_embed (before s after needle : string) :
  contains s needle → contains (before +:+ s +:+ after) needle.
Proof.
  intros (b & a & ->). exists (before +:+ b), (a +:+ after).
  by rewrite !append_assoc.
Qed.

Lemma placeholder_substrings_spec (value : string) :
  placeholder value = true ↔ contains value "your_" ∨ contains value "_here".
Proof.
  rewrite placeholder_spec. split; [| tauto].
  intros [? | [? | Hlit]]; [tauto | tauto |].
  left. by apply includes_contains, literal_includes_your.
Qed.

Lemma envResult_success (varName : string) (value : option string) :
  success (envResult varName value) = true ↔
    ∃ text, value = Some text ∧ text ≠ "" ∧
            ¬ contains text "your_" ∧ ¬ contains text "_here".
Proof.
  unfold envResult. destruct value as [[|c text]|].
  - split; [done | by intros (? & [= <-] & ? & _)].
  - destruct (placeholder (String c text)) eqn:E; simpl.
    + apply placeholder_substrings_spec in E.
      split; [done | intros (? & [= <-] & _ & ? & ?); tauto].
    + split; [| done]. intros _. exists (String c text).
      repeat split; [done | |]; intros Hc;
        assert (placeholder (String c text) = true)
          by (apply placeholder_substrings_spec; tauto); congruence.
  - split; [done | by intros (? & ? & _)].
Qed.

Lemma callbackResult_success (value : option string) :
  success (callbackResult value) = true ↔
    ∃ text url, value = Some text ∧ text ≠ "" ∧ parseURL text = Some url ∧
                contains (pathname url) "/auth/callback".
Proof.
  unfold callbackResult. destruct value as [[|c text]|].
  - split; [done | by intros (? & ? & [= <-] & ? & _)].
  - destruct (parseURL (String c text)) as [url|] eqn:Hurl.
    + destruct (includes (pathname url) "/auth/callback") eqn:E; simpl.
      * apply includes_contains in E. split; [| done].
        intros _. by exists (String c text), url.
      * apply includes_not_contains in E. split; [done |].
        intros (? & url' & [= <-] & _ & Hurl' & Hc). congruence.
    + split; [done |]. intros (? & url' & [= <-] & _ & Hurl' & _). congruence.
  - split; [done | by intros (? & ? & ? & _)].
Qed.

Lemma configResult_success (entry : option node) :
  success (configResult entry) = true ↔
    ∃ bytes, entry = Some (File bytes) ∧
             contains (utf8_decode bytes) "@medusajs/medusa/auth-google".
Proof.
  unfold configResult. destruct entry as [[bytes|e]|].
  - destruct (includes (utf8_decode bytes) "@medusajs/medusa/auth-google") eqn:E;
      simpl.
    + apply includes_contains in E. split; [| done]. intros _. by exists bytes.
    + apply includes_not_contains in E. split; [done |].
      by intros (? & [= <-] & ?).
  - split; [done | by intros (? & ? & _)].
  - split; [done | by intros (? & ? & _)].
Qed.

(** The number of failed results of a run. *)
Lemma main_failures (w : World) :
  ∃ failed,
    failed =
      failures
        [envResult "GOOGLE_CLIENT_ID" (env w !! "GOOGLE_CLIENT_ID");
         envResult "GOOGLE_CLIENT_SECRET" (env w !! "GOOGLE_CLIENT_SECRET");
         envResult "GOOGLE_CALLBACK_URL" (env w !! "GOOGLE_CALLBACK_URL");
         callbackResult (env w !! "GOOGLE_CALLBACK_URL");
         configResult (nodes (fs w) !! resolve (cwd w) "medusa-config.ts")] ∧
    failed ≤ 5 ∧
    (Validate.main w).1 = Exit (if Nat.eqb failed 0 then 0 else 1)%Z ∧
    ∃ lines, console (Validate.main w).2 = console w ++ lines ++ closing failed.
Proof.
  eexists. split; [reflexivity |]. split.
  { unfold failures. etrans; [apply List.filter_length_le |]. done. }
  rewrite main_run. split; [done |].
  eexists ([_] ++ report _ _ _). cbn [snd printed console]. by rewrite <- app_assoc.
Qed.

(** X7. The validation script only reads: it leaves the working directory,
    the environment and the file system as they are, and adds lines to the
    console. *)
Theorem validate_main_read_only (w : World) :
  cwd (Validate.main w).2 = cwd w ∧
  env (Validate.main w).2 = env w ∧
  fs (Validate.main w).2 = fs w ∧
  ∃ lines, console (Validate.main w).2 = console w ++ lines.
Proof. rewrite main_run. simpl. repeat split. by eexists. Qed.

(** X8. What makes the validation pass, in terms of what the script reads:
    it exits with code 0 exactly when each of the three variables is set,
    not empty and contains neither [your_] nor [_here], GOOGLE_CALLBACK_URL
    parses as a URL whose path contains [/auth/callback], and
    [medusa-config.ts] can be read and contains the module identifier. *)
Theorem main_passes_iff (w : World) :
  (Validate.main w).1 = Exit 0%Z ↔
    (∀ varName, varName ∈ requiredVars →
       ∃ text, env w !! varName = Some text ∧ text ≠ "" ∧
               ¬ contains text "your_" ∧ ¬ contains text "_here") ∧
    (∃ text url, env w !! "GOOGLE_CALLBACK_URL" = Some text ∧
                 parseURL text = Some url ∧
                 contains (pathname url) "/auth/callback") ∧
    (∃ bytes, nodes (fs w) !! resolve (cwd w) "medusa-config.ts" = Some (File bytes) ∧
              contains (utf8_decode bytes) "@medusajs/medusa/auth-google").
Proof.
  destruct (main_failures w) as (failed & Hfailed & _ & -> & _).
  assert (Hzero : Exit (A:=unit) (if Nat.eqb failed 0 then 0 else 1)%Z = Exit 0%Z
                  ↔ failed = 0) by (by destruct failed).
  rewrite Hzero, Hfailed, failures_zero, !Forall_cons, Forall_nil.
  rewrite !envResult_success, callbackResult_success, configResult_success.
  unfold requiredVars. split.
  - intros (Hid & Hsecret & Hurl & Hcallback & Hconfig & _).
    split; [| split; [| done]].
    + intros varName Hin. rewrite !elem_of_cons in Hin.
      destruct Hin as [-> | [-> | [-> | Hin]]]; [done | done | done |].
      by apply elem_of_nil in Hin.
    + destruct Hcallback as (text & url & ? & _ & ? & ?). by exists text, url.
  - intros (Hvars & (text & url & Htext & Hurl & Hpath) & Hconfig).
    split; [apply Hvars; listed |]. split; [apply Hvars; listed |].
    split; [apply Hvars; listed |]. split; [| done].
    exists text, url. split; [done |]. split; [| done].
    destruct (Hvars "GOOGLE_CALLBACK_URL") as (text' & Htext' & Hne & _);
      [listed |]. congruence.
Qed.

(** X9. A GOOGLE_CALLBACK_URL that is unset or empty fails two checks, the
    environment-variable check and the callback-URL check: the script exits
    with code 1 and the count it prints is at least 2. *)
Theorem missing_callback_counts_twice (w : World) :
  env w !! "GOOGLE_CALLBACK_URL" = None ∨ env w !! "GOOGLE_CALLBACK_URL" = Some "" →
  (Validate.main w).1 = Exit 1%Z ∧
  ∃ failed, 2 ≤ failed ≤ 5 ∧
    Log (LF +:+ "❌ " +:+ pretty failed +:+
         " validation(s) failed. Please fix the issues above.")
      ∈ console (Validate.main w).2.
Proof.
  intros Hmissing.
  destruct (main_failures w) as (failed & Hfailed & Hmax & -> & lines & ->).
  assert (Hmin : 2 ≤ failed).
  { rewrite Hfailed. unfold failures.
    destruct Hmissing as [-> | ->]; simpl;
      repeat (destruct (success _); simpl); lia. }
  destruct failed as [|n]; [lia |]. split; [done |].
  exists (S n). split; [lia |].
  rewrite !elem_of_app. right. right. apply list_elem_of_here.
Qed.

(** X10. The verdict depends on the three variables and on the entry
    [medusa-config.ts] of the working directory, and on nothing else: two
    states that agree on these give the same exit code and print the same
    lines. *)
Theorem main_depends_on (w1 w2 : World) :
  (∀ varName, varName ∈ requiredVars → env w1 !! varName = env w2 !! varName) →
  nodes (fs w1) !! resolve (cwd w1) "medusa-config.ts" =
    nodes (fs w2) !! resolve (cwd w2) "medusa-config.ts" →
  (Validate.main w1).1 = (Validate.main w2).1 ∧
  ∃ lines,
    console (Validate.main w1).2 = console w1 ++ lines ∧
    console (Validate.main w2).2 = console w2 ++ lines.
Proof.
  intros Hvars Hconfig. rewrite !main_run. simpl.
  rewrite <- Hconfig.
  rewrite <- !(Hvars "GOOGLE_CLIENT_ID"), <- !(Hvars "GOOGLE_CLIENT_SECRET"),
    <- !(Hvars "GOOGLE_CALLBACK_URL") by (unfold requiredVars; listed).
  split; [done |]. by eexists.
Qed.

(** X11. The placeholder test is not anchored: a value that holds a rejected
    value anywhere inside it is rejected too. *)
Theorem placeholder_embedded (before value after : string) :
  placeholder value = true →
  placeholder (before +:+ value +:+ after) = true.
Proof.
  rewrite !placeholder_substrings_spec.
  intros [Hc | Hc]; [left | right]; by apply contains_embed.
Qed.

(** X12. How a run ends: either with exit code 0 after the line
    "All validations passed", or with exit code 1 after a line that counts
    the failed results, a number from 1 to 5; the count line is never
    printed on success, nor the success line on failure. *)
Theorem main_closing (w : World) :
  let passed :=
    Log (LF +:+
      "🎉 All validations passed! Google Auth integration is properly configured.") in
  let counted (failed : nat) :=
    Log (LF +:+ "❌ " +:+ pretty failed +:+
         " validation(s) failed. Please fix the issues above.") in
  ∃ lines,
    ((Validate.main w).1 = Exit 0%Z ∧
     console (Validate.main w).2 = console w ++ lines ++ closing 0 ∧
     passed ∈ closing 0 ∧ ∀ failed, counted failed ∉ closing 0) ∨
    (∃ failed, 1 ≤ failed ≤ 5 ∧
       (Validate.main w).1 = Exit 1%Z ∧
       console (Validate.main w).2 = console w ++ lines ++ closing failed ∧
       counted failed ∈ closing failed ∧ passed ∉ closing failed).
Proof.
  intros passed counted.
  destruct (main_failures w) as (failed & _ & Hmax & -> & lines & ->).
  exists lines. destruct failed as [|n].
  - left. split; [done |]. split; [done |]. split; [apply list_elem_of_here |].
    intros failed Hin. unfold closing in Hin. simpl in Hin.
    rewrite !elem_of_cons in Hin.
    destruct Hin as [Hin | [Hin | [Hin | [Hin | [Hin | Hin]]]]];
      try discriminate Hin. by apply elem_of_nil in Hin.
  - right. exists (S n). split; [lia |]. split; [done |]. split; [done |].
    split; [apply list_elem_of_here |].
    intros Hin. unfold closing in Hin. simpl in Hin.
    rewrite !elem_of_cons in Hin.
    destruct Hin as [Hin | [Hin | [Hin | [Hin | [Hin | [Hin | Hin]]]]]];
      try discriminate Hin. by apply elem_of_nil in Hin.
Qed.

End validate_more.

(** ** The further theorems at the example states *)

Section more_instances.
Import Validate Examples.

Lemma createEnvFile_utf8_witness :
  UTF8.well_formed template = true ∧
  nodes (fs (@Setup.createEnvFile plain_runtime fresh).2) !! "/app/.env" =
    Some (File template).
Proof.
  split; [reflexivity |].
  apply (createEnvFile_utf8 fresh template); reflexivity.
Defined.

Lemma createEnvFile_without_template_witness :
  @Setup.createEnvFile plain_runtime bare =
    (Ok tt, printed bare (Setup.checking bare ++ Setup.template_not_found)) ∧
  fs (@Setup.createEnvFile plain_runtime bare).2 = fs bare ∧
  nodes (fs (@Setup.createEnvFile plain_runtime bare).2) !! "/app/.env" = None.
Proof.
  apply (@createEnvFile_without_template plain_runtime bare); reflexivity.
Defined.


Lemma missing_callback_counts_twice_witness :
  (@Validate.main plain_runtime bare).1 = Exit 1%Z ∧
  ∃ failed, 2 ≤ failed ≤ 5 ∧
    Log (LF +:+ "❌ " +:+ pretty failed +:+
         " validation(s) failed. Please fix the issues above.")
      ∈ console (@Validate.main plain_runtime bare).2.
Proof.
  apply (@missing_callback_counts_twice plain_runtime bare).
  left. reflexivity.
Defined.

Lemma main_depends_on_witness :
  (@Validate.main plain_runtime configured).1 =
    (@Validate.main plain_runtime configured_elsewhere).1 ∧
  ∃ lines,
    console (@Validate.main plain_runtime configured).2 =
      console configured ++ lines ∧
    console (@Validate.main plain_runtime configured_elsewhere).2 =
      console configured_elsewhere ++ lines.
Proof.
  apply (@main_depends_on plain_runtime configured configured_elsewhere).
  - intros varName Hin. unfold requiredVars in Hin.
    rewrite !elem_of_cons in Hin.
    destruct Hin as [-> | [-> | [-> | Hin]]];
      [reflexivity | reflexivity | reflexivity |].
    destruct (proj1 (elem_of_nil _) Hin).
  - reflexivity.
Defined.

Lemma placeholder_embedded_witness :
  placeholder "GOCSPX-your_secret-0123" = true.
Proof.
  apply (placeholder_embedded "GOCSPX-" "your_" "secret-0123"). reflexivity.
Defined.

End more_instances.

(** ** What [.env] holds after the setup, and what is said about it *)

Section setup_env.
Context `{Runtime}.
Import Setup.



End setup_env.
